(** * http-client-wrapper-axios: the Result wrapper and the HTTP facade

    A shallow embedding of [src/try-catch.ts] (the function [tryCatch]) and
    of [src/http-client.ts] (the class [HttpClient]) over a small model of
    the JavaScript object store.

    - A JavaScript value is a primitive or a reference into the store, so
      that "the same object" is "the same reference".
    - An object is its map of own data properties.  Accessors, proxies and
      properties inherited from a prototype are not modelled: none of the
      property names read by the code is defined on a built-in prototype.
    - A promise is represented by the way it settles; a promise that stays
      pending for ever is not represented.
    - The transport ([axios]) is not part of the repository: it is a
      parameter of the model, a function from the configuration object to a
      promise (it does not throw before it returns the promise).
    - A number is a binary64 float, as in JavaScript. *)

From Stdlib Require Import ZArith Ascii String.
From Stdlib Require Import Floats.PrimFloat.
From stdpp Require Import base option strings pretty gmap.

Local Open Scope string_scope.

(** ** Values and the object store *)

Definition loc := positive.

Inductive value : Type :=
  | VUndefined
  | VNull
  | VBool (b : bool)
  | VNum (f : float)
  | VBigInt (z : Z)
  | VStr (s : string)
  | VSym (n : nat)
  | VRef (l : loc).

(** An object: its own properties.  The store: the objects allocated so far. *)
Abbreviation obj := (gmap string value).
Abbreviation heap := (gmap loc obj).

(** [ToBoolean]: the falsy values are [undefined], [null], [false], [+0],
    [-0], [NaN], [0n] and the empty string. *)
Definition truthy (v : value) : bool :=
  match v with
  | VUndefined | VNull => false
  | VBool b => b
  | VNum f => negb (PrimFloat.is_zero f || PrimFloat.is_nan f)
  | VBigInt z => negb (Z.eqb z 0)
  | VStr s => negb (String.eqb s "")
  | VSym _ | VRef _ => true
  end.

(** The values that [??] and [?.] treat as missing. *)
Definition nullish (v : value) : bool :=
  match v with
  | VUndefined | VNull => true
  | _ => false
  end.

(** ** Computations: store passing with exceptions *)

Inductive completion (A : Type) : Type :=
  | Normal (a : A)
  | Throw (e : value).
Arguments Normal {A} a.
Arguments Throw {A} e.

Definition M (A : Type) : Type := heap -> heap * completion A.

Definition ret {A} (a : A) : M A := fun h => (h, Normal a).

Definition bind {A B} (m : M A) (k : A -> M B) : M B :=
  fun h =>
    match m h with
    | (h', Normal a) => k a h'
    | (h', Throw e) => (h', Throw e)
    end.

Definition throw {A} (e : value) : M A := fun h => (h, Throw e).

(** [try { m } catch (e) { handler e }] *)
Definition try_catch {A} (m : M A) (handler : value -> M A) : M A :=
  fun h =>
    match m h with
    | (h', Normal a) => (h', Normal a)
    | (h', Throw e) => handler e h'
    end.

Notation "x <- m ;; k" := (bind m (fun x => k))
  (at level 100, m at next level, right associativity).

(** An object literal or a [new]: a fresh reference. *)
Definition alloc (o : obj) : M value :=
  fun h => let l := fresh (dom h) in (<[l := o]> h, Normal (VRef l)).

Definition type_error (msg : string) : obj :=
  {[ "name" := VStr "TypeError"; "message" := VStr msg ]}.

Definition throw_type_error {A} (v : value) (k : string) : M A :=
  e <- alloc (type_error ("Cannot read properties of "
                          ++ (if v is VNull then "null" else "undefined")
                          ++ " (reading '" ++ k ++ "')")) ;;
  throw e.

(** The own properties of an object reference; a primitive has none of the
    properties the code reads. *)
Definition props (h : heap) (v : value) : obj :=
  match v with
  | VRef l => default ∅ (h !! l)
  | _ => ∅
  end.

(** The value read by [v.k] when [v] is neither [undefined] nor [null]:
    a property that is missing reads as [undefined]. *)
Definition field (h : heap) (v : value) (k : string) : value :=
  default VUndefined (props h v !! k).

(** [v.k] *)
Definition get_prop (v : value) (k : string) : M value :=
  fun h =>
    if nullish v then throw_type_error v k h
    else (h, Normal (field h v k)).

(** [v?.k] *)
Definition opt_get (v : value) (k : string) : M value :=
  if nullish v then ret VUndefined else get_prop v k.

(** [a ?? b], for a [b] without effects *)
Definition coalesce (a b : value) : value := if nullish a then b else a.

(** [a || b]: [b] is evaluated only when [a] is falsy *)
Definition or_else (a : value) (b : M value) : M value :=
  if truthy a then ret a else b.

(** ** Promises *)

Inductive settled : Type :=
  | Fulfilled (v : value)
  | Rejected (e : value).

(** A promise together with the effects on the store that happen until it
    settles. *)
Definition Promise : Type := heap -> heap * settled.

(** The body of an [async function]: a returned value fulfils the promise,
    an exception that escapes rejects it. *)
Definition async_fn (body : M value) : Promise :=
  fun h =>
    match body h with
    | (h', Normal v) => (h', Fulfilled v)
    | (h', Throw e) => (h', Rejected e)
    end.

(** [await p] *)
Definition await (p : Promise) : M value :=
  fun h =>
    match p h with
    | (h', Fulfilled v) => (h', Normal v)
    | (h', Rejected e) => (h', Throw e)
    end.

(** A promise that has already settled. *)
Definition settle (s : settled) : Promise := fun h => (h, s).

(** ** src/try-catch.ts *)

Definition tryCatch (promise : Promise) : Promise :=
  async_fn
    (try_catch
       (data <- await promise ;;
        alloc {[ "result" := data ]})
       (fun error => alloc {[ "error" := error ]})).

(** ** src/http-client.ts *)

Inductive HttpMethod : Type := GET | POST | PUT | PATCH | DELETE.

Definition HttpMethod_name (m : HttpMethod) : string :=
  match m with
  | GET => "GET"
  | POST => "POST"
  | PUT => "PUT"
  | PATCH => "PATCH"
  | DELETE => "DELETE"
  end.

(** [AxiosInstance.request]: called with a configuration object, it returns
    a promise. *)
Definition Transport : Type := value -> Promise.

(** The class has one field. *)
Record HttpClient : Type := { axiosInstance : Transport }.

(** Strings.  A [string] holds text in UTF-8, as the literals of this file
    are stored; JavaScript indexes a string by UTF-16 code units.  A
    character of one, two or three bytes is one code unit; a character of
    four bytes is a pair of surrogates, each written here in the same
    three-byte form.  A byte that cannot start a character is taken as one
    unit, and a character cut short by the end of the string as what is
    left of it. *)
Definition utf8_length (b : N) : nat :=
  if (b <? 192)%N then 1
  else if (b <? 224)%N then 2
  else if (b <? 240)%N then 3
  else if (b <? 248)%N then 4
  else 1.

(** The three bytes of a code unit [u] between 2048 and 65535. *)
Definition three_bytes (u : N) : string :=
  String (ascii_of_N (224 + N.shiftr u 12))
    (String (ascii_of_N (128 + N.land (N.shiftr u 6) 63))
       (String (ascii_of_N (128 + N.land u 63)) EmptyString)).

(** The code point of a character of four bytes. *)
Definition code_point4 (b0 b1 b2 b3 : N) : N :=
  N.lor (N.shiftl (N.land b0 7) 18)
    (N.lor (N.shiftl (N.land b1 63) 12)
       (N.lor (N.shiftl (N.land b2 63) 6) (N.land b3 63))).

(** The code units of one character, given by its bytes. *)
Definition units_of_char (c : string) : list string :=
  match c with
  | String b0 (String b1 (String b2 (String b3 EmptyString))) =>
      let cp := (code_point4 (N_of_ascii b0) (N_of_ascii b1) (N_of_ascii b2)
                             (N_of_ascii b3) - 65536)%N in
      [three_bytes (55296 + N.shiftr cp 10); three_bytes (56320 + N.land cp 1023)]
  | _ => [c]
  end.

(** The code units of a string: [cur] holds the bytes of the character
    being read and [need] the number of bytes it still lacks. *)
Fixpoint code_units (cur : string) (need : nat) (s : string) : list string :=
  match s with
  | EmptyString =>
      match cur with
      | EmptyString => []
      | _ => units_of_char cur
      end
  | String b s' =>
      match need with
      | 0 =>
          match utf8_length (N_of_ascii b) with
          | 1 => String b EmptyString :: code_units EmptyString 0 s'
          | n => code_units (String b EmptyString) (pred n) s'
          end
      | 1 => units_of_char (cur ++ String b EmptyString) ++ code_units EmptyString 0 s'
      | S k => code_units (cur ++ String b EmptyString) k s'
      end
  end.

(** The indexed properties of a string, given by its code units, from
    index [i] on. *)
Fixpoint string_props (i : nat) (units : list string) : obj :=
  match units with
  | [] => ∅
  | u :: units' => <[pretty i := VStr u]> (string_props (S i) units')
  end.

(** What [...v] copies into an object literal: the own properties of an
    object, the indexed code units of a string, nothing otherwise. *)
Definition spread (h : heap) (v : value) : obj :=
  match v with
  | VRef l => default ∅ (h !! l)
  | VStr s => string_props 0 (code_units EmptyString 0 s)
  | _ => ∅
  end.

(** [{ baseURL, ...options }]: the properties of [options] are written
    after [baseURL], so in the union they come first. *)
Definition constructor_config (baseURL options : value) : M value :=
  fun h => alloc (spread h options ∪ {[ "baseURL" := baseURL ]}) h.

Section Facade.

(** [axios.create] *)
Variable axios_create : value -> M Transport.

Definition new_HttpClient (baseURL options : value) : M HttpClient :=
  cfg <- constructor_config baseURL options ;;
  instance <- axios_create cfg ;;
  ret {| axiosInstance := instance |}.

End Facade.

Definition request (self : HttpClient) (config : value) : Promise :=
  async_fn
    (method <- get_prop config "method" ;;
     url <- get_prop config "url" ;;
     headers <- get_prop config "headers" ;;
     params <- get_prop config "params" ;;
     data <- get_prop config "body" ;;
     arg <- alloc {[ "method" := method; "url" := url; "headers" := headers;
                     "params" := params; "data" := data ]} ;;
     axiosResponse <- await (tryCatch (axiosInstance self arg)) ;;
     error <- get_prop axiosResponse "error" ;;
     if truthy error then
       error1 <- get_prop axiosResponse "error" ;;
       status <- get_prop error1 "status" ;;
       error2 <- get_prop axiosResponse "error" ;;
       response <- get_prop error2 "response" ;;
       response_headers <- opt_get response "headers" ;;
       headers' <- or_else response_headers (alloc ∅) ;;
       error3 <- get_prop axiosResponse "error" ;;
       alloc {[ "status" := coalesce status (VNum 500);
                "headers" := headers';
                "error" := error3 ]}
     else
       result1 <- get_prop axiosResponse "result" ;;
       status <- get_prop result1 "status" ;;
       result2 <- get_prop axiosResponse "result" ;;
       headers' <- get_prop result2 "headers" ;;
       result3 <- get_prop axiosResponse "result" ;;
       data' <- get_prop result3 "data" ;;
       alloc {[ "status" := status; "headers" := headers'; "data" := data' ]}).

(** A method that builds an object literal and passes it on. *)
Definition with_object (o : obj) (k : value -> Promise) : Promise :=
  fun h => let l := fresh (dom h) in k (VRef l) (<[l := o]> h).

Definition get (self : HttpClient) (url params headers : value) : Promise :=
  with_object {[ "method" := VStr "GET"; "url" := url; "params" := params;
                 "headers" := headers ]} (request self).

Definition post (self : HttpClient) (url body headers : value) : Promise :=
  with_object {[ "method" := VStr "POST"; "url" := url; "body" := body;
                 "headers" := headers ]} (request self).

Definition put (self : HttpClient) (url body headers : value) : Promise :=
  with_object {[ "method" := VStr "PUT"; "url" := url; "body" := body;
                 "headers" := headers ]} (request self).

Definition patch (self : HttpClient) (url body headers : value) : Promise :=
  with_object {[ "method" := VStr "PATCH"; "url" := url; "body" := body;
                 "headers" := headers ]} (request self).

Definition delete (self : HttpClient) (url headers : value) : Promise :=
  with_object {[ "method" := VStr "DELETE"; "url" := url; "headers" := headers ]}
              (request self).

(** ** Concrete runs (the unit tests of the repository) *)

Module Tests.

Definition json_headers : obj := {[ "content-type" := VStr "application/json" ]}.

(** [mockResolvedValue]: the response object and its headers are allocated,
    the promise fulfils with the response. *)
Definition mockResolvedValue (status : value) (headers : obj) (data : value)
  : Transport :=
  fun _ h =>
    let lh := fresh (dom h) in
    let h1 := <[lh := headers]> h in
    let lr := fresh (dom h1) in
    (<[lr := {[ "status" := status; "headers" := VRef lh; "data" := data ]}]> h1,
     Fulfilled (VRef lr)).

(** [mockRejectedValue] with an error object. *)
Definition mockRejectedValue (error : obj) : Transport :=
  fun _ h => let le := fresh (dom h) in (<[le := error]> h, Rejected (VRef le)).

(** [mockRejectedValue] with an error object that has a nested response:
    headers, response and error are allocated in this order. *)
Definition mockRejectedResponse (error : obj) (status : value) (headers : obj)
                                (data : value) : Transport :=
  fun _ h =>
    let lh := fresh (dom h) in
    let h1 := <[lh := headers]> h in
    let lr := fresh (dom h1) in
    let h2 := <[lr := {[ "status" := status; "headers" := VRef lh;
                         "data" := data ]}]> h1 in
    let le := fresh (dom h2) in
    (<[le := <["response" := VRef lr]> error]> h2, Rejected (VRef le)).

(** A transport that settles with a given value, allocating nothing. *)
Definition settles (s : settled) : Transport := fun _ => settle s.

Definition client_ok : HttpClient :=
  {| axiosInstance := mockResolvedValue (VNum 200) json_headers (VStr "post 1") |}.

(** An error with its own status and the nested response of the peer. *)
Definition client_404 : HttpClient :=
  {| axiosInstance :=
       mockRejectedResponse {[ "message" := VStr "Request failed with status code 404";
                               "status" := VNum 404 ]}
                            (VNum 404) json_headers VUndefined |}.

(** An error without a status of its own, with a nested response. *)
Definition client_nested_only : HttpClient :=
  {| axiosInstance :=
       mockRejectedResponse {[ "message" := VStr "Not Found" ]}
                            (VNum 404) json_headers VUndefined |}.

(** "should handle axios error with undefined status" *)
Definition client_status_0 : HttpClient :=
  {| axiosInstance :=
       mockRejectedResponse {[ "message" := VStr "Unknown Error" ]}
                            (VNum 0) json_headers VUndefined |}.

(** "should handle axios error without response" *)
Definition client_network_error : HttpClient :=
  {| axiosInstance := mockRejectedValue {[ "message" := VStr "Network Error";
                                           "code" := VStr "NETWORK_ERROR" ]} |}.

(** A transport whose promise is rejected without a value. *)
Definition client_reject_undefined : HttpClient :=
  {| axiosInstance := settles (Rejected VUndefined) |}.

(** Options that carry a [baseURL] of their own, and a store that holds
    them at reference 1. *)
Definition options_with_baseURL : obj :=
  {[ "baseURL" := VStr "https://other.example.com"; "timeout" := VNum 1000 ]}.

Definition store_options : heap := {[ 1%positive := options_with_baseURL ]}.

(** [axios.create] as the unit tests mock it: it returns a given instance. *)
Definition mock_create (T : Transport) : value -> M Transport := fun _ => ret T.

(** A transport that serves GET requests as [T] does and rejects every
    other call without a value. *)
Definition only_GET (T : Transport) : Transport :=
  fun arg h =>
    match field h arg "method" with
    | VStr "GET" => T arg h
    | _ => settle (Rejected VUndefined) h
    end.

(** A client whose transport answers GET requests only. *)
Definition client_only_GET : HttpClient :=
  {| axiosInstance :=
       only_GET (mockResolvedValue (VNum 200) json_headers (VStr "post 1")) |}.

(** The store before a call of [request]: it holds the [HttpRequest] of
    [get(url)], at reference 1. *)
Definition store_get (url : string) : heap :=
  {[ 1%positive := {[ "method" := VStr "GET"; "url" := VStr url;
                      "params" := VUndefined; "headers" := VUndefined ]} ]}.

End Tests.

(** ** Vocabulary of the statements *)

(** The object that [tryCatch] builds for a settled promise. *)
Definition Result_of (s : settled) : obj :=
  match s with
  | Fulfilled v => {[ "result" := v ]}
  | Rejected e => {[ "error" := e ]}
  end.

(** The configuration object that [request] hands to the transport. *)
Definition transport_config (h : heap) (config : value) : obj :=
  {[ "method" := field h config "method"; "url" := field h config "url";
     "headers" := field h config "headers"; "params" := field h config "params";
     "data" := field h config "body" ]}.

(** The call that [request] makes to the transport: the store in which the
    transport's promise settles, and how it settles. *)
Definition transport_call (self : HttpClient) (config : value) (h : heap)
  : heap * settled :=
  axiosInstance self (VRef (fresh (dom h)))
                (<[fresh (dom h) := transport_config h config]> h).

(** [error.response?.headers] *)
Definition failure_headers (h : heap) (e : value) : value :=
  if nullish (field h e "response") then VUndefined
  else field h (field h e "response") "headers".

(** The object returned on the failure branch, given its [headers]. *)
Definition failure_response (h : heap) (e headers : value) : obj :=
  {[ "status" := coalesce (field h e "status") (VNum 500);
     "headers" := headers;
     "error" := e ]}.

(** The object returned on the success branch. *)
Definition success_response (h : heap) (v : value) : obj :=
  {[ "status" := field h v "status"; "headers" := field h v "headers";
     "data" := field h v "data" ]}.

(** What [request] rejects with when it reads [.status] of [undefined] or
    [null]. *)
Definition status_of_nullish (v : value) : obj :=
  type_error ("Cannot read properties of "
              ++ (if v is VNull then "null" else "undefined")
              ++ " (reading 'status')").

(** The promise, run in a store, is fulfilled with the object [o]. *)
Definition resolves_with (r : heap * settled) (o : obj) : Prop :=
  exists l, r.2 = Fulfilled (VRef l) /\ r.1 !! l = Some o.

(** The outcomes of the transport that [request] can map: a fulfilment with
    a value other than [undefined] and [null], a rejection with a truthy
    value. *)
Definition mappable (s : settled) : bool :=
  match s with
  | Fulfilled v => negb (nullish v)
  | Rejected e => truthy e
  end.

(** An object, as opposed to a primitive. *)
Definition is_object (v : value) : bool :=
  match v with
  | VRef _ => true
  | _ => false
  end.

(** What [request] makes of the outcome of the transport: [r] is the store
    in which the transport's promise settled, and how it settled.  The
    Result object comes first, then the response, or the [TypeError] of the
    read of [status] that fails. *)
Definition respond (r : heap * settled) : heap * settled :=
  let h2 := r.1 in
  let h3 := <[fresh (dom h2) := Result_of r.2]> h2 in
  match r.2 with
  | Fulfilled v =>
      if nullish v
      then (<[fresh (dom h3) := status_of_nullish v]> h3,
            Rejected (VRef (fresh (dom h3))))
      else (<[fresh (dom h3) := success_response h2 v]> h3,
            Fulfilled (VRef (fresh (dom h3))))
  | Rejected e =>
      if truthy e
      then if truthy (failure_headers h2 e)
           then (<[fresh (dom h3) := failure_response h2 e (failure_headers h2 e)]> h3,
                 Fulfilled (VRef (fresh (dom h3))))
           else let h4 := <[fresh (dom h3) := ∅]> h3 in
                (<[fresh (dom h4) := failure_response h2 e (VRef (fresh (dom h3)))]> h4,
                 Fulfilled (VRef (fresh (dom h4))))
      else (<[fresh (dom h3) := status_of_nullish VUndefined]> h3,
            Rejected (VRef (fresh (dom h3))))
  end.

(** The statements of the specification that the code is compared with. *)
Module Spec.

(** The type [HttpRequest]; an optional field that is left out of the
    literal is [None]. *)
Record HttpRequest : Type := {
  method : HttpMethod;
  url : value;
  headers : option value;
  params : option value;
  body : option value
}.

Definition optional (k : string) (f : option value) (o : obj) : obj :=
  match f with
  | Some v => <[k := v]> o
  | None => o
  end.

Definition HttpRequest_obj (r : HttpRequest) : obj :=
  optional "body" (body r)
    (optional "params" (params r)
       (optional "headers" (headers r)
          {[ "method" := VStr (HttpMethod_name (method r)); "url" := url r ]})).

(** "the failure's own status code if present, else the nested response's
    status if present, else 500" *)
Definition failure_status (h : heap) (e : value) : value :=
  coalesce (field h e "status")
    (coalesce (if nullish (field h e "response") then VUndefined
               else field h (field h e "response") "status")
       (VNum 500)).

(** "the status of the returned HttpResponse is the failure's own status
    code if present, else the nested response's, else 500" *)
Definition status_fallback_chain (self : HttpClient) (lc : loc) (h : heap) : Prop :=
  forall h2 e o,
    transport_call self (VRef lc) h = (h2, Rejected e) ->
    resolves_with (request self (VRef lc) h) o ->
    o !! "status" = Some (failure_status h2 e).

(** "where the failure carries a nested response, status equals that
    nested response's status and headers equals its headers" *)
Definition nested_response_wins (self : HttpClient) (lc : loc) (h : heap) : Prop :=
  forall h2 e lr r o,
    transport_call self (VRef lc) h = (h2, Rejected e) ->
    field h2 e "response" = VRef lr ->
    h2 !! lr = Some r ->
    resolves_with (request self (VRef lc) h) o ->
    o !! "status" = Some (default VUndefined (r !! "status"))
    /\ o !! "headers" = Some (default VUndefined (r !! "headers")).

(** "each of the five public verb methods resolves with an HttpResponse"
    whatever the transport does *)
Definition verbs_always_resolve (self : HttpClient) : Prop :=
  forall (u p b hd : value) (h : heap),
    (exists o, resolves_with (get self u p hd h) o)
    /\ (exists o, resolves_with (post self u b hd h) o)
    /\ (exists o, resolves_with (put self u b hd h) o)
    /\ (exists o, resolves_with (patch self u b hd h) o)
    /\ (exists o, resolves_with (delete self u hd h) o).

End Spec.

(** * Properties *)

(** ** The store and the monad *)

Lemma fresh_None (h : heap) : h !! fresh (dom h) = None.
Proof. apply not_elem_of_dom, is_fresh. Qed.

Lemma alloc_frame (h : heap) (o : obj) (l : loc) :
  is_Some (h !! l) -> <[fresh (dom h) := o]> h !! l = h !! l.
Proof.
  intros [x Hx]. apply lookup_insert_ne. intros E.
  pose proof (fresh_None h) as F. rewrite E in F. congruence.
Qed.

Lemma bind_ret {A B} (a : A) (k : A -> M B) h : (x <- ret a ;; k x) h = k a h.
Proof. reflexivity. Qed.

Lemma bind_alloc {B} (o : obj) (k : value -> M B) h :
  (x <- alloc o ;; k x) h = k (VRef (fresh (dom h))) (<[fresh (dom h) := o]> h).
Proof. reflexivity. Qed.

Lemma bind_get_prop {B} v key (k : value -> M B) h :
  nullish v = false -> (x <- get_prop v key ;; k x) h = k (field h v key) h.
Proof. intros N. unfold bind, get_prop. rewrite N. reflexivity. Qed.

Lemma bind_get_prop_nullish {B} v key (k : value -> M B) h :
  nullish v = true ->
  (x <- get_prop v key ;; k x) h = throw_type_error v key h.
Proof. intros N. unfold bind at 1, get_prop. rewrite N. reflexivity. Qed.

Lemma truthy_not_nullish v : truthy v = true -> nullish v = false.
Proof. destruct v; simpl; congruence. Qed.

(** Reading a property that a fresh object does not have: the fresh object
    makes no difference, whether or not the reference read through is
    dangling. *)
Lemma field_fresh (h : heap) (o : obj) v key :
  o !! key = None -> field (<[fresh (dom h) := o]> h) v key = field h v key.
Proof.
  intros Hk. unfold field. destruct v; simpl; try reflexivity.
  destruct (decide (l = fresh (dom h))) as [->|Hne].
  - rewrite lookup_insert_eq, fresh_None. simpl. rewrite Hk, lookup_empty. reflexivity.
  - rewrite lookup_insert_ne by congruence. reflexivity.
Qed.

Lemma field_new (h : heap) (l : loc) (o : obj) key :
  field (<[l := o]> h) (VRef l) key = default VUndefined (o !! key).
Proof. unfold field. simpl. rewrite lookup_insert_eq. reflexivity. Qed.

Lemma field_obj (h : heap) (l : loc) (o : obj) key :
  h !! l = Some o -> field h (VRef l) key = default VUndefined (o !! key).
Proof. intros H. unfold field. simpl. rewrite H. reflexivity. Qed.

(** ** The Result wrapper *)

Lemma tryCatch_run (p : Promise) (h : heap) :
  tryCatch p h =
  (<[fresh (dom (p h).1) := Result_of (p h).2]> (p h).1,
   Fulfilled (VRef (fresh (dom (p h).1)))).
Proof.
  unfold tryCatch, async_fn, try_catch, bind, await.
  destruct (p h) as [h1 [v|e]]; reflexivity.
Qed.

(** C7.  The Result wrapper never rejects, whatever the promise does: it is
    fulfilled with a fresh object, which is [{ result: v }] when the promise
    is fulfilled with [v] and [{ error: e }] when the promise is rejected
    with [e]; in both cases the object has exactly one of the two fields. *)
Theorem tryCatch_total (p : Promise) (h : heap) :
  exists (l : loc) (o : obj),
    (p h).1 !! l = None
    /\ tryCatch p h = (<[l := o]> (p h).1, Fulfilled (VRef l))
    /\ match (p h).2 with
       | Fulfilled v => o = {[ "result" := v ]}
       | Rejected e => o = {[ "error" := e ]}
       end
    /\ ((is_Some (o !! "result") /\ o !! "error" = None)
        \/ (o !! "result" = None /\ is_Some (o !! "error"))).
Proof.
  exists (fresh (dom (p h).1)), (Result_of (p h).2).
  split; [apply fresh_None|]. split; [apply tryCatch_run|].
  destruct ((p h).2) as [v|e]; simpl.
  - split; [reflexivity|]. left. split.
    + rewrite lookup_singleton_eq. eauto.
    + apply lookup_singleton_ne. discriminate.
  - split; [reflexivity|]. right. split.
    + apply lookup_singleton_ne. discriminate.
    + rewrite lookup_singleton_eq. eauto.
Qed.

(** ** The internal request operation *)

Lemma field_singleton_eq (h : heap) (l : loc) key v :
  field (<[l := {[ key := v ]}]> h) (VRef l) key = v.
Proof. rewrite field_new, lookup_singleton_eq. reflexivity. Qed.

Lemma field_singleton_ne (h : heap) (l : loc) key key' v :
  key <> key' -> field (<[l := {[ key := v ]}]> h) (VRef l) key' = VUndefined.
Proof. intros N. rewrite field_new, lookup_singleton_ne by exact N. reflexivity. Qed.

Lemma bind_opt_get {B} v key (k : value -> M B) h :
  (x <- opt_get v key ;; k x) h
  = k (if nullish v then VUndefined else field h v key) h.
Proof.
  unfold opt_get. destruct (nullish v) eqn:N; [reflexivity|].
  apply bind_get_prop, N.
Qed.

(** The part of [request] up to the test of [axiosResponse.error]. *)
Ltac request_start Hcall :=
  unfold transport_call, transport_config in Hcall;
  unfold request, async_fn;
  do 5 (rewrite bind_get_prop by reflexivity);
  rewrite bind_alloc;
  unfold bind at 1; unfold await at 1; rewrite tryCatch_run;
  rewrite Hcall; cbn [fst snd Result_of];
  rewrite bind_get_prop by reflexivity.

(** A rejection with a truthy value takes the failure branch. *)
Lemma request_rejected (self : HttpClient) (lc : loc) (h h2 : heap) (e : value) :
  transport_call self (VRef lc) h = (h2, Rejected e) ->
  truthy e = true ->
  let h3 := <[fresh (dom h2) := {[ "error" := e ]}]> h2 in
  let h4 := <[fresh (dom h3) := ∅]> h3 in
  request self (VRef lc) h =
  if truthy (failure_headers h2 e) then
    (<[fresh (dom h3) := failure_response h2 e (failure_headers h2 e)]> h3,
     Fulfilled (VRef (fresh (dom h3))))
  else
    (<[fresh (dom h4) := failure_response h2 e (VRef (fresh (dom h3)))]> h4,
     Fulfilled (VRef (fresh (dom h4)))).
Proof.
  intros Hcall He h3 h4. subst h3 h4.
  request_start Hcall.
  rewrite field_singleton_eq, He.
  rewrite bind_get_prop by reflexivity. rewrite field_singleton_eq.
  rewrite bind_get_prop by (apply truthy_not_nullish, He).
  rewrite bind_get_prop by reflexivity. rewrite field_singleton_eq.
  rewrite bind_get_prop by (apply truthy_not_nullish, He).
  rewrite bind_opt_get.
  rewrite !field_fresh by reflexivity.
  fold (failure_headers h2 e).
  unfold or_else. destruct (truthy (failure_headers h2 e)).
  - rewrite bind_ret. rewrite bind_get_prop by reflexivity. rewrite field_singleton_eq.
    reflexivity.
  - rewrite bind_alloc. rewrite bind_get_prop by reflexivity.
    rewrite field_fresh by reflexivity. rewrite field_singleton_eq.
    reflexivity.
Qed.

(** A fulfilment with a value other than [undefined] and [null] takes the
    success branch. *)
Lemma request_fulfilled (self : HttpClient) (lc : loc) (h h2 : heap) (v : value) :
  transport_call self (VRef lc) h = (h2, Fulfilled v) ->
  nullish v = false ->
  let h3 := <[fresh (dom h2) := {[ "result" := v ]}]> h2 in
  request self (VRef lc) h =
  (<[fresh (dom h3) := success_response h2 v]> h3, Fulfilled (VRef (fresh (dom h3)))).
Proof.
  intros Hcall Hv h3. subst h3.
  request_start Hcall.
  rewrite field_singleton_ne by discriminate. cbn [truthy].
  do 3 (rewrite bind_get_prop by reflexivity; rewrite field_singleton_eq;
        rewrite bind_get_prop by exact Hv).
  rewrite !field_fresh by reflexivity.
  reflexivity.
Qed.

(** A fulfilment with [undefined] or [null]: the success branch throws. *)
Lemma request_fulfilled_nullish (self : HttpClient) (lc : loc) (h h2 : heap) (v : value) :
  transport_call self (VRef lc) h = (h2, Fulfilled v) ->
  nullish v = true ->
  let h3 := <[fresh (dom h2) := {[ "result" := v ]}]> h2 in
  request self (VRef lc) h =
  (<[fresh (dom h3) := status_of_nullish v]> h3, Rejected (VRef (fresh (dom h3)))).
Proof.
  intros Hcall Hv h3. subst h3.
  request_start Hcall.
  rewrite field_singleton_ne by discriminate. cbn [truthy].
  rewrite bind_get_prop by reflexivity. rewrite field_singleton_eq.
  rewrite bind_get_prop_nullish by exact Hv.
  reflexivity.
Qed.

(** A rejection with a falsy value: the success branch is taken, there is no
    [result], and reading its [status] throws. *)
Lemma request_rejected_falsy (self : HttpClient) (lc : loc) (h h2 : heap) (e : value) :
  transport_call self (VRef lc) h = (h2, Rejected e) ->
  truthy e = false ->
  let h3 := <[fresh (dom h2) := {[ "error" := e ]}]> h2 in
  request self (VRef lc) h =
  (<[fresh (dom h3) := status_of_nullish VUndefined]> h3,
   Rejected (VRef (fresh (dom h3)))).
Proof.
  intros Hcall He h3. subst h3.
  request_start Hcall.
  rewrite field_singleton_eq, He.
  rewrite bind_get_prop by reflexivity.
  rewrite field_singleton_ne by discriminate.
  rewrite bind_get_prop_nullish by reflexivity.
  reflexivity.
Qed.

(** ** The two mappings, as seen by the caller *)

Lemma alloc_Some (h : heap) (o : obj) (l : loc) :
  is_Some (h !! l) -> is_Some (<[fresh (dom h) := o]> h !! l).
Proof. intros H. rewrite alloc_frame by exact H. exact H. Qed.

(** The failure branch: the returned object, its headers, and the objects
    that were in the store when the transport settled. *)
Lemma request_rejected_resolves (self : HttpClient) (lc : loc) (h h2 : heap) (e : value) :
  transport_call self (VRef lc) h = (h2, Rejected e) ->
  truthy e = true ->
  exists hv,
    resolves_with (request self (VRef lc) h) (failure_response h2 e hv)
    /\ (if truthy (failure_headers h2 e) then hv = failure_headers h2 e
        else exists lh, hv = VRef lh /\ h2 !! lh = None
                        /\ (request self (VRef lc) h).1 !! lh = Some ∅)
    /\ (forall l, is_Some (h2 !! l) -> (request self (VRef lc) h).1 !! l = h2 !! l).
Proof.
  intros Hcall He. rewrite (request_rejected _ _ _ _ _ Hcall He). cbv zeta.
  destruct (truthy (failure_headers h2 e)).
  - exists (failure_headers h2 e). split; [|split; [reflexivity|]].
    + eexists. split; [reflexivity|]. apply lookup_insert_eq.
    + intros l Hl. cbn [fst].
      rewrite alloc_frame by (apply alloc_Some, Hl). apply alloc_frame, Hl.
  - eexists. split; [|split].
    + eexists. split; [reflexivity|]. apply lookup_insert_eq.
    + eexists. split; [reflexivity|]. cbn [fst]. split.
      * destruct (h2 !! _) eqn:E; [|reflexivity].
        pose proof (fresh_None (<[fresh (dom h2) := {[ "error" := e ]}]> h2)) as F.
        rewrite alloc_frame in F by eauto. congruence.
      * rewrite alloc_frame by (rewrite lookup_insert_eq; eauto).
        apply lookup_insert_eq.
    + intros l Hl. cbn [fst].
      rewrite alloc_frame by (do 2 apply alloc_Some; exact Hl).
      rewrite alloc_frame by (apply alloc_Some, Hl). apply alloc_frame, Hl.
Qed.

Lemma failure_response_status h e hv :
  failure_response h e hv !! "status" = Some (coalesce (field h e "status") (VNum 500)).
Proof. reflexivity. Qed.

Lemma failure_response_headers h e hv : failure_response h e hv !! "headers" = Some hv.
Proof. reflexivity. Qed.

Lemma failure_response_error h e hv : failure_response h e hv !! "error" = Some e.
Proof. reflexivity. Qed.

Lemma failure_response_data h e hv : failure_response h e hv !! "data" = None.
Proof. reflexivity. Qed.

(** ** The failure mapping *)

(** C1, as the code has it.  When the transport rejects with a failure
    object, [request] resolves with a response whose status is the failure's
    own status if it is neither [undefined] nor [null], and 500 otherwise;
    the status of a nested response is not consulted. *)
Theorem failure_status_own_or_500
    (self : HttpClient) (lc : loc) (h h2 : heap) (le : loc) (oe : obj) :
  transport_call self (VRef lc) h = (h2, Rejected (VRef le)) ->
  h2 !! le = Some oe ->
  exists o,
    resolves_with (request self (VRef lc) h) o
    /\ o !! "status" = Some (coalesce (default VUndefined (oe !! "status")) (VNum 500)).
Proof.
  intros Hcall Hle.
  destruct (request_rejected_resolves self lc h h2 (VRef le) Hcall eq_refl)
    as (hv & Hres & _ & _).
  eexists. split; [exact Hres|].
  rewrite failure_response_status, (field_obj _ _ _ _ Hle). reflexivity.
Qed.

Lemma failure_status_own_or_500_witness :
  exists o,
    resolves_with (request Tests.client_404 (VRef 1%positive) (Tests.store_get "/posts/-1")) o
    /\ o !! "status" = Some (VNum 404).
Proof.
  refine (failure_status_own_or_500 Tests.client_404 1%positive
            (Tests.store_get "/posts/-1")
            (transport_call Tests.client_404 (VRef 1%positive) (Tests.store_get "/posts/-1")).1
            5%positive
            {[ "message" := VStr "Request failed with status code 404";
               "status" := VNum 404; "response" := VRef 4%positive ]} _ _);
    vm_compute; reflexivity.
Defined.

Lemma VNum_500_404 : VNum 500 <> VNum 404.
Proof.
  intros E.
  apply (f_equal (fun v => match v with VNum f => PrimFloat.eqb f 500 | _ => false end)) in E.
  vm_compute in E. discriminate.
Qed.

(** C1, as the specification words it, fails for a failure that has no
    status of its own and a nested response with status 404: the response
    has status 500. *)
Lemma status_fallback_chain_counterexample :
  ~ Spec.status_fallback_chain Tests.client_nested_only 1%positive
      (Tests.store_get "/posts/-1").
Proof.
  intros C.
  specialize (C (transport_call Tests.client_nested_only (VRef 1%positive)
                   (Tests.store_get "/posts/-1")).1
                (VRef 5%positive)
                {[ "status" := VNum 500; "headers" := VRef 3%positive;
                   "error" := VRef 5%positive ]}).
  assert (Some (VNum 500) = Some (VNum 404)) as E.
  { apply C.
    - vm_compute. reflexivity.
    - exists 7%positive. split; vm_compute; reflexivity. }
  apply VNum_500_404. congruence.
Qed.

(** C2, as the code has it.  When the failure object carries a nested
    response, the headers of the returned response are the headers of that
    nested response if they are truthy (the very same value), and a fresh
    empty object otherwise; the status is the failure's own status if it is
    neither [undefined] nor [null], and 500 otherwise. *)
Theorem failure_with_nested_response
    (self : HttpClient) (lc : loc) (h h2 : heap) (le lr : loc) (oe r : obj) :
  transport_call self (VRef lc) h = (h2, Rejected (VRef le)) ->
  h2 !! le = Some oe ->
  oe !! "response" = Some (VRef lr) ->
  h2 !! lr = Some r ->
  exists o,
    resolves_with (request self (VRef lc) h) o
    /\ o !! "status" = Some (coalesce (default VUndefined (oe !! "status")) (VNum 500))
    /\ if truthy (default VUndefined (r !! "headers"))
       then o !! "headers" = Some (default VUndefined (r !! "headers"))
       else exists lh, o !! "headers" = Some (VRef lh) /\ h2 !! lh = None
                       /\ (request self (VRef lc) h).1 !! lh = Some ∅.
Proof.
  intros Hcall Hle Hresp Hlr.
  destruct (request_rejected_resolves self lc h h2 (VRef le) Hcall eq_refl)
    as (hv & Hres & Hhv & _).
  assert (failure_headers h2 (VRef le) = default VUndefined (r !! "headers")) as Hfh.
  { unfold failure_headers. rewrite (field_obj _ _ _ _ Hle), Hresp. simpl.
    apply field_obj, Hlr. }
  rewrite Hfh in Hhv.
  eexists. split; [exact Hres|]. split.
  - rewrite failure_response_status, (field_obj _ _ _ _ Hle). reflexivity.
  - rewrite failure_response_headers.
    destruct (truthy (default VUndefined (r !! "headers"))).
    + congruence.
    + destruct Hhv as (lh & -> & Hfresh & Hempty). eauto.
Qed.

Lemma failure_with_nested_response_witness :
  exists o,
    resolves_with (request Tests.client_status_0 (VRef 1%positive) (Tests.store_get "/users")) o
    /\ o !! "status" = Some (VNum 500)
    /\ o !! "headers" = Some (VRef 3%positive).
Proof.
  refine (failure_with_nested_response Tests.client_status_0 1%positive
            (Tests.store_get "/users")
            (transport_call Tests.client_status_0 (VRef 1%positive) (Tests.store_get "/users")).1
            5%positive 4%positive
            {[ "message" := VStr "Unknown Error"; "response" := VRef 4%positive ]}
            {[ "status" := VNum 0; "headers" := VRef 3%positive; "data" := VUndefined ]}
            _ _ _ _);
    vm_compute; reflexivity.
Defined.

Lemma VNum_500_0 : VNum 500 <> VNum 0.
Proof.
  intros E.
  apply (f_equal (fun v => match v with VNum f => PrimFloat.eqb f 500 | _ => false end)) in E.
  vm_compute in E. discriminate.
Qed.

(** C2, as the specification words it, fails on the input of the unit test
    "should handle axios error with undefined status": the nested response
    has status 0, the failure has no status of its own, and the response has
    status 500. *)
Lemma nested_response_wins_counterexample :
  ~ Spec.nested_response_wins Tests.client_status_0 1%positive (Tests.store_get "/users").
Proof.
  intros C.
  destruct (C (transport_call Tests.client_status_0 (VRef 1%positive)
                 (Tests.store_get "/users")).1
              (VRef 5%positive) 4%positive
              {[ "status" := VNum 0; "headers" := VRef 3%positive; "data" := VUndefined ]}
              {[ "status" := VNum 500; "headers" := VRef 3%positive;
                 "error" := VRef 5%positive ]}) as [E _].
  - vm_compute. reflexivity.
  - vm_compute. reflexivity.
  - vm_compute. reflexivity.
  - exists 7%positive. split; vm_compute; reflexivity.
  - apply VNum_500_0. vm_compute in E. congruence.
Qed.

(** C4.  When the transport rejects with a failure object, the returned
    response has no [data] field, its [error] field is the reference to that
    very object, and the object is in the store as the transport left it. *)
Theorem failure_passes_error_through
    (self : HttpClient) (lc : loc) (h h2 : heap) (le : loc) (oe : obj) :
  transport_call self (VRef lc) h = (h2, Rejected (VRef le)) ->
  h2 !! le = Some oe ->
  exists o,
    resolves_with (request self (VRef lc) h) o
    /\ o !! "data" = None
    /\ o !! "error" = Some (VRef le)
    /\ (request self (VRef lc) h).1 !! le = Some oe.
Proof.
  intros Hcall Hle.
  destruct (request_rejected_resolves self lc h h2 (VRef le) Hcall eq_refl)
    as (hv & Hres & _ & Hframe).
  eexists. split; [exact Hres|].
  split; [apply failure_response_data|]. split; [apply failure_response_error|].
  rewrite Hframe by eauto. exact Hle.
Qed.

Lemma failure_passes_error_through_witness :
  exists o,
    resolves_with (request Tests.client_404 (VRef 1%positive) (Tests.store_get "/posts/-1")) o
    /\ o !! "data" = None
    /\ o !! "error" = Some (VRef 5%positive)
    /\ (request Tests.client_404 (VRef 1%positive) (Tests.store_get "/posts/-1")).1
         !! 5%positive
       = Some {[ "message" := VStr "Request failed with status code 404";
                 "status" := VNum 404; "response" := VRef 4%positive ]}.
Proof.
  refine (failure_passes_error_through Tests.client_404 1%positive
            (Tests.store_get "/posts/-1")
            (transport_call Tests.client_404 (VRef 1%positive) (Tests.store_get "/posts/-1")).1
            5%positive _ _ _);
    vm_compute; reflexivity.
Defined.

(** C5.  When the failure object has neither a status of its own nor a
    nested response (each is missing, [undefined] or [null]), the returned
    response has status 500 and its headers are a fresh empty object. *)
Theorem failure_without_status_or_response
    (self : HttpClient) (lc : loc) (h h2 : heap) (le : loc) (oe : obj) :
  transport_call self (VRef lc) h = (h2, Rejected (VRef le)) ->
  h2 !! le = Some oe ->
  nullish (default VUndefined (oe !! "status")) = true ->
  nullish (default VUndefined (oe !! "response")) = true ->
  exists o lh,
    resolves_with (request self (VRef lc) h) o
    /\ o !! "status" = Some (VNum 500)
    /\ o !! "headers" = Some (VRef lh)
    /\ h2 !! lh = None
    /\ (request self (VRef lc) h).1 !! lh = Some ∅.
Proof.
  intros Hcall Hle Hst Hresp.
  destruct (request_rejected_resolves self lc h h2 (VRef le) Hcall eq_refl)
    as (hv & Hres & Hhv & _).
  assert (failure_headers h2 (VRef le) = VUndefined) as Hfh.
  { unfold failure_headers. rewrite (field_obj _ _ _ _ Hle), Hresp. reflexivity. }
  rewrite Hfh in Hhv. simpl in Hhv. destruct Hhv as (lh & -> & Hfresh & Hempty).
  eexists _, lh. split; [exact Hres|].
  split; [|split; [apply failure_response_headers|split; assumption]].
  rewrite failure_response_status, (field_obj _ _ _ _ Hle).
  unfold coalesce. rewrite Hst. reflexivity.
Qed.

Lemma failure_without_status_or_response_witness :
  exists o lh,
    resolves_with (request Tests.client_network_error (VRef 1%positive)
                     (Tests.store_get "/users")) o
    /\ o !! "status" = Some (VNum 500)
    /\ o !! "headers" = Some (VRef lh)
    /\ (transport_call Tests.client_network_error (VRef 1%positive)
          (Tests.store_get "/users")).1 !! lh = None
    /\ (request Tests.client_network_error (VRef 1%positive)
          (Tests.store_get "/users")).1 !! lh = Some ∅.
Proof.
  refine (failure_without_status_or_response Tests.client_network_error 1%positive
            (Tests.store_get "/users") _ 3%positive
            {[ "message" := VStr "Network Error"; "code" := VStr "NETWORK_ERROR" ]}
            _ _ _ _);
    vm_compute; reflexivity.
Defined.


(** ** The success mapping *)

(** C3.  When the transport resolves with a response object, the returned
    response has no [error] field, and its [status], [headers] and [data]
    are those of the resolved response. *)
Theorem success_is_verbatim
    (self : HttpClient) (lc : loc) (h h2 : heap) (lres : loc) (ores : obj) :
  transport_call self (VRef lc) h = (h2, Fulfilled (VRef lres)) ->
  h2 !! lres = Some ores ->
  exists o,
    resolves_with (request self (VRef lc) h) o
    /\ o !! "error" = None
    /\ o !! "status" = Some (default VUndefined (ores !! "status"))
    /\ o !! "headers" = Some (default VUndefined (ores !! "headers"))
    /\ o !! "data" = Some (default VUndefined (ores !! "data")).
Proof.
  intros Hcall Hres.
  exists (success_response h2 (VRef lres)). split.
  - rewrite (request_fulfilled _ _ _ _ _ Hcall eq_refl). cbv zeta.
    eexists. split; [reflexivity|]. apply lookup_insert_eq.
  - unfold success_response. rewrite !(field_obj _ _ _ _ Hres).
    repeat split; reflexivity.
Qed.

Lemma success_is_verbatim_witness :
  exists o,
    resolves_with (request Tests.client_ok (VRef 1%positive) (Tests.store_get "/posts/1")) o
    /\ o !! "error" = None
    /\ o !! "status" = Some (VNum 200)
    /\ o !! "headers" = Some (VRef 3%positive)
    /\ o !! "data" = Some (VStr "post 1").
Proof.
  refine (success_is_verbatim Tests.client_ok 1%positive (Tests.store_get "/posts/1")
            (transport_call Tests.client_ok (VRef 1%positive) (Tests.store_get "/posts/1")).1
            4%positive
            {[ "status" := VNum 200; "headers" := VRef 3%positive;
               "data" := VStr "post 1" ]} _ _);
    vm_compute; reflexivity.
Defined.

(** ** Which mapping is applied *)

(** C9.  After a rejection, [request] chooses by the truthiness of the
    rejection value: a truthy value goes through the failure mapping and is
    the [error] of the response; a falsy value is sent to the success
    mapping, which finds no [result] and throws, so that [request] rejects
    with a [TypeError]. *)
Theorem branch_by_truthiness
    (self : HttpClient) (lc : loc) (h h2 : heap) (e : value) :
  transport_call self (VRef lc) h = (h2, Rejected e) ->
  if truthy e
  then exists hv, resolves_with (request self (VRef lc) h) (failure_response h2 e hv)
  else exists l,
         (request self (VRef lc) h).2 = Rejected (VRef l)
         /\ (request self (VRef lc) h).1 !! l = Some (status_of_nullish VUndefined).
Proof.
  intros Hcall. destruct (truthy e) eqn:He.
  - destruct (request_rejected_resolves self lc h h2 e Hcall He) as (hv & Hres & _).
    exists hv. exact Hres.
  - rewrite (request_rejected_falsy _ _ _ _ _ Hcall He). cbv zeta.
    eexists. split; [reflexivity|]. apply lookup_insert_eq.
Qed.

Lemma branch_by_truthiness_witness :
  exists l,
    (request Tests.client_reject_undefined (VRef 1%positive) (Tests.store_get "/users")).2
    = Rejected (VRef l)
    /\ (request Tests.client_reject_undefined (VRef 1%positive) (Tests.store_get "/users")).1
         !! l
       = Some {[ "name" := VStr "TypeError";
                 "message" := VStr "Cannot read properties of undefined (reading 'status')" ]}.
Proof.
  refine (branch_by_truthiness Tests.client_reject_undefined 1%positive
            (Tests.store_get "/users")
            (transport_call Tests.client_reject_undefined (VRef 1%positive)
               (Tests.store_get "/users")).1
            VUndefined _).
  vm_compute. reflexivity.
Defined.

(** ** The verb methods *)

(** C8.  Each verb method is [request] on a fresh [HttpRequest] that carries
    the method name, the caller's url and headers, and: for [get] the
    caller's params and no body; for [delete] neither params nor body; for
    [post], [put] and [patch] the caller's body and no params. *)
Theorem verbs_delegate_to_request (self : HttpClient) (u p b hd : value) (h : heap) :
  exists l,
    h !! l = None
    /\ get self u p hd h
       = request self (VRef l)
           (<[l := Spec.HttpRequest_obj
                     {| Spec.method := GET; Spec.url := u; Spec.headers := Some hd;
                        Spec.params := Some p; Spec.body := None |}]> h)
    /\ post self u b hd h
       = request self (VRef l)
           (<[l := Spec.HttpRequest_obj
                     {| Spec.method := POST; Spec.url := u; Spec.headers := Some hd;
                        Spec.params := None; Spec.body := Some b |}]> h)
    /\ put self u b hd h
       = request self (VRef l)
           (<[l := Spec.HttpRequest_obj
                     {| Spec.method := PUT; Spec.url := u; Spec.headers := Some hd;
                        Spec.params := None; Spec.body := Some b |}]> h)
    /\ patch self u b hd h
       = request self (VRef l)
           (<[l := Spec.HttpRequest_obj
                     {| Spec.method := PATCH; Spec.url := u; Spec.headers := Some hd;
                        Spec.params := None; Spec.body := Some b |}]> h)
    /\ delete self u hd h
       = request self (VRef l)
           (<[l := Spec.HttpRequest_obj
                     {| Spec.method := DELETE; Spec.url := u; Spec.headers := Some hd;
                        Spec.params := None; Spec.body := None |}]> h).
Proof.
  exists (fresh (dom h)). split; [apply fresh_None|].
  unfold get, post, put, patch, delete, with_object. cbv zeta.
  repeat split; f_equal; f_equal; apply map_eq; intros k;
    unfold Spec.HttpRequest_obj, Spec.optional; simpl;
    repeat (rewrite !lookup_insert; repeat case_decide; subst; try reflexivity;
            try congruence).
Qed.

(** What the transport is called with, as the unit tests check it with
    [toHaveBeenCalledWith]: a field that the [HttpRequest] leaves out is
    passed as [undefined]. *)
Lemma transport_config_of_HttpRequest (h : heap) (l : loc) (r : Spec.HttpRequest) :
  transport_config (<[l := Spec.HttpRequest_obj r]> h) (VRef l)
  = {[ "method" := VStr (HttpMethod_name (Spec.method r));
       "url" := Spec.url r;
       "headers" := default VUndefined (Spec.headers r);
       "params" := default VUndefined (Spec.params r);
       "data" := default VUndefined (Spec.body r) ]}.
Proof.
  unfold transport_config. rewrite !field_new.
  destruct r as [m u [hd|] [p|] [b|]]; reflexivity.
Qed.

Lemma request_mappable (self : HttpClient) (lc : loc) (h : heap) :
  mappable (transport_call self (VRef lc) h).2 = true ->
  exists o,
    resolves_with (request self (VRef lc) h) o
    /\ is_Some (o !! "status") /\ is_Some (o !! "headers").
Proof.
  destruct (transport_call self (VRef lc) h) as [h2 [v|e]] eqn:Hcall; simpl; intros Hm.
  - apply negb_true_iff in Hm.
    rewrite (request_fulfilled _ _ _ _ _ Hcall Hm). cbv zeta.
    eexists. split; [eexists; split; [reflexivity|apply lookup_insert_eq]|].
    split; eexists; reflexivity.
  - destruct (request_rejected_resolves self lc h h2 e Hcall Hm) as (hv & Hres & _).
    eexists. split; [exact Hres|]. split; eexists; reflexivity.
Qed.

(** C6, as the code has it.  For each of the five verb methods and each
    call: if the promise that the transport returns for this call is
    fulfilled with a value other than [undefined] and [null], or rejected
    with a truthy value, the verb method resolves with an object that has a
    [status] and [headers]; it does not reject.  Nothing is asked of the
    other calls that the transport could receive. *)
Theorem verbs_resolve_on_mappable_outcomes
    (self : HttpClient) (u p b hd : value) (h : heap) :
  let outcome (req : obj) :=
    (transport_call self (VRef (fresh (dom h))) (<[fresh (dom h) := req]> h)).2 in
  (mappable (outcome {[ "method" := VStr "GET"; "url" := u; "params" := p;
                        "headers" := hd ]}) = true ->
   exists o, resolves_with (get self u p hd h) o
             /\ is_Some (o !! "status") /\ is_Some (o !! "headers"))
  /\ (mappable (outcome {[ "method" := VStr "POST"; "url" := u; "body" := b;
                           "headers" := hd ]}) = true ->
      exists o, resolves_with (post self u b hd h) o
                /\ is_Some (o !! "status") /\ is_Some (o !! "headers"))
  /\ (mappable (outcome {[ "method" := VStr "PUT"; "url" := u; "body" := b;
                           "headers" := hd ]}) = true ->
      exists o, resolves_with (put self u b hd h) o
                /\ is_Some (o !! "status") /\ is_Some (o !! "headers"))
  /\ (mappable (outcome {[ "method" := VStr "PATCH"; "url" := u; "body" := b;
                           "headers" := hd ]}) = true ->
      exists o, resolves_with (patch self u b hd h) o
                /\ is_Some (o !! "status") /\ is_Some (o !! "headers"))
  /\ (mappable (outcome {[ "method" := VStr "DELETE"; "url" := u;
                           "headers" := hd ]}) = true ->
      exists o, resolves_with (delete self u hd h) o
                /\ is_Some (o !! "status") /\ is_Some (o !! "headers")).
Proof.
  cbv zeta. unfold get, post, put, patch, delete, with_object.
  repeat split; intros Hm; apply request_mappable; exact Hm.
Qed.

(** The transport of this client rejects every call that is not a GET, so it
    is not mappable on every call; [get] resolves all the same. *)
Lemma verbs_resolve_on_mappable_outcomes_witness :
  exists o,
    resolves_with (get Tests.client_only_GET (VStr "/posts/1") VUndefined VUndefined ∅) o
    /\ is_Some (o !! "status") /\ is_Some (o !! "headers").
Proof.
  refine (proj1 (verbs_resolve_on_mappable_outcomes Tests.client_only_GET
                   (VStr "/posts/1") VUndefined VUndefined VUndefined ∅) _).
  vm_compute. reflexivity.
Defined.

(** C6, as the specification words it, fails for a transport whose promise
    is rejected with [undefined]: [get] rejects. *)
Lemma verbs_always_resolve_counterexample :
  ~ Spec.verbs_always_resolve Tests.client_reject_undefined.
Proof.
  intros C.
  destruct (C (VStr "/users") VUndefined VUndefined VUndefined ∅) as [[o [l [E _]]] _].
  vm_compute in E. discriminate.
Qed.

(** ** Construction *)

(** C10.  The options are merged after the positional base URL.  For an
    options object [oo], the configuration handed to [axios.create] is a
    fresh object whose [baseURL] is the [baseURL] entry of [oo] when [oo]
    has one, and the positional argument when it has none; every other
    entry is the entry of [oo].  The options object itself is left as it
    was. *)
Theorem options_override_baseURL
    (axios_create : value -> M Transport) (baseURL : value)
    (lo : loc) (oo : obj) (h : heap) :
  h !! lo = Some oo ->
  exists (l : loc) (o : obj),
    h !! l = None
    /\ constructor_config baseURL (VRef lo) h = (<[l := o]> h, Normal (VRef l))
    /\ new_HttpClient axios_create baseURL (VRef lo) h
       = (instance <- axios_create (VRef l) ;; ret {| axiosInstance := instance |})
           (<[l := o]> h)
    /\ o !! "baseURL" = Some (default baseURL (oo !! "baseURL"))
    /\ (forall k, k <> "baseURL" -> o !! k = oo !! k)
    /\ <[l := o]> h !! lo = Some oo.
Proof.
  intros Hlo.
  exists (fresh (dom h)), (oo ∪ {[ "baseURL" := baseURL ]}).
  split; [apply fresh_None|].
  assert (constructor_config baseURL (VRef lo) h
          = (<[fresh (dom h) := oo ∪ {[ "baseURL" := baseURL ]}]> h,
             Normal (VRef (fresh (dom h))))) as Hcfg.
  { unfold constructor_config, spread, alloc. rewrite Hlo. reflexivity. }
  split; [exact Hcfg|].
  split; [unfold new_HttpClient, bind at 1; rewrite Hcfg; reflexivity|].
  split; [|split].
  - rewrite lookup_union. destruct (oo !! "baseURL") as [v|]; reflexivity.
  - intros k Hk. rewrite lookup_union, lookup_singleton_ne by congruence.
    destruct (oo !! k); reflexivity.
  - rewrite alloc_frame by eauto. exact Hlo.
Qed.

Lemma options_override_baseURL_witness :
  exists (l : loc) (o : obj),
    Tests.store_options !! l = None
    /\ constructor_config (VStr "https://api.example.com") (VRef 1%positive)
         Tests.store_options
       = (<[l := o]> Tests.store_options, Normal (VRef l))
    /\ new_HttpClient (Tests.mock_create (Tests.settles (Fulfilled VNull)))
         (VStr "https://api.example.com") (VRef 1%positive) Tests.store_options
       = (instance <- Tests.mock_create (Tests.settles (Fulfilled VNull)) (VRef l) ;;
          ret {| axiosInstance := instance |})
           (<[l := o]> Tests.store_options)
    /\ o !! "baseURL" = Some (VStr "https://other.example.com")
    /\ (forall k, k <> "baseURL" -> o !! k = Tests.options_with_baseURL !! k)
    /\ <[l := o]> Tests.store_options !! 1%positive = Some Tests.options_with_baseURL.
Proof.
  refine (options_override_baseURL (Tests.mock_create (Tests.settles (Fulfilled VNull)))
            (VStr "https://api.example.com") 1%positive
            Tests.options_with_baseURL Tests.store_options _).
  reflexivity.
Defined.

(** ** Runs of the unit tests *)

(** "should create axios instance with baseURL": without options the
    configuration is [{ baseURL }]. *)
Example constructor_without_options :
  constructor_config (VStr "https://api.example.com") VUndefined ∅
  = ({[ 1%positive := {[ "baseURL" := VStr "https://api.example.com" ]} ]},
     Normal (VRef 1%positive)).
Proof. vm_compute. reflexivity. Qed.

(** Options that carry a [baseURL] of their own. *)
Example constructor_with_baseURL_option :
  let options : obj := {[ "baseURL" := VStr "https://other.example.com";
                          "timeout" := VNum 1000 ]} in
  exists h,
    constructor_config (VStr "https://api.example.com") (VRef 1%positive)
                       {[ 1%positive := options ]}
    = (h, Normal (VRef 2%positive))
    /\ h !! 2%positive = Some options.
Proof. eexists. split; vm_compute; reflexivity. Qed.

(** Spreading a string copies its characters under their indices. *)
Example spread_string :
  spread ∅ (VStr "ab") = {[ "0" := VStr "a"; "1" := VStr "b" ]}.
Proof. vm_compute. reflexivity. Qed.

(** A character of several bytes is one code unit, hence one index. *)
Example spread_string_accent :
  spread ∅ (VStr "aé€") = {[ "0" := VStr "a"; "1" := VStr "é"; "2" := VStr "€" ]}.
Proof. vm_compute. reflexivity. Qed.

(** A character outside the basic plane is two code units, the two
    surrogates D83D and DE00 for U+1F600. *)
Example spread_string_surrogates :
  spread ∅ (VStr "😀")
  = {[ "0" := VStr (three_bytes 55357); "1" := VStr (three_bytes 56832) ]}.
Proof. vm_compute. reflexivity. Qed.

(** "should make successful GET request" *)
Example get_success :
  exists h,
    get Tests.client_ok (VStr "/users") VUndefined VUndefined ∅
    = (h, Fulfilled (VRef 6%positive))
    /\ h !! 6%positive
       = Some {[ "status" := VNum 200; "headers" := VRef 3%positive;
                 "data" := VStr "post 1" ]}
    /\ h !! 3%positive = Some Tests.json_headers
    /\ h !! 2%positive
       = Some {[ "method" := VStr "GET"; "url" := VStr "/users";
                 "headers" := VUndefined; "params" := VUndefined;
                 "data" := VUndefined ]}.
Proof. eexists. repeat split; vm_compute; reflexivity. Qed.

(** "should handle axios error without response" *)
Example get_network_error :
  exists h,
    get Tests.client_network_error (VStr "/users") VUndefined VUndefined ∅
    = (h, Fulfilled (VRef 6%positive))
    /\ h !! 6%positive
       = Some {[ "status" := VNum 500; "headers" := VRef 5%positive;
                 "error" := VRef 3%positive ]}
    /\ h !! 5%positive = Some ∅.
Proof. eexists. repeat split; vm_compute; reflexivity. Qed.

(** A promise fulfilled with [undefined]: [request] rejects as well. *)
Example get_fulfilled_undefined :
  exists h,
    get {| axiosInstance := Tests.settles (Fulfilled VUndefined) |}
        (VStr "/users") VUndefined VUndefined ∅
    = (h, Rejected (VRef 4%positive))
    /\ h !! 4%positive = Some (status_of_nullish VUndefined).
Proof. eexists. split; vm_compute; reflexivity. Qed.

(** The falsy values. *)
Example falsy_values :
  map truthy [VUndefined; VNull; VBool false; VNum 0; VNum (-0); VNum nan;
              VBigInt 0; VStr ""]
  = [false; false; false; false; false; false; false; false].
Proof. vm_compute. reflexivity. Qed.


(** * Further properties of the code *)

(** ** The Result wrapper *)

Lemma Result_of_inj (s1 s2 : settled) : Result_of s1 = Result_of s2 -> s1 = s2.
Proof.
  destruct s1 as [v1|e1], s2 as [v2|e2]; simpl; intros E.
  - apply (f_equal (fun o : obj => o !! "result")) in E.
    rewrite !lookup_singleton_eq in E. congruence.
  - apply (f_equal (fun o : obj => o !! "result")) in E.
    rewrite lookup_singleton_eq, lookup_singleton_ne in E by discriminate. discriminate.
  - apply (f_equal (fun o : obj => o !! "result")) in E.
    rewrite lookup_singleton_eq, lookup_singleton_ne in E by discriminate. discriminate.
  - apply (f_equal (fun o : obj => o !! "error")) in E.
    rewrite !lookup_singleton_eq in E. congruence.
Qed.

(** X1.  Wrapping twice: [tryCatch(tryCatch(p))] is always fulfilled with a
    success, [{ result: r }], where [r] is the Result object of the inner
    call, also when [p] is rejected; the failure of [p] is one level down. *)
Theorem tryCatch_twice (p : Promise) (h : heap) :
  exists (l1 l2 : loc) (h1 : heap),
    tryCatch p h = (h1, Fulfilled (VRef l1))
    /\ l1 <> l2
    /\ h1 !! l2 = None
    /\ tryCatch (tryCatch p) h
       = (<[l2 := {[ "result" := VRef l1 ]}]> h1, Fulfilled (VRef l2)).
Proof.
  exists (fresh (dom (p h).1)),
         (fresh (dom (<[fresh (dom (p h).1) := Result_of (p h).2]> (p h).1))),
         (<[fresh (dom (p h).1) := Result_of (p h).2]> (p h).1).
  split; [apply tryCatch_run|]. split; [|split; [apply fresh_None|]].
  - intros E.
    pose proof (fresh_None (<[fresh (dom (p h).1) := Result_of (p h).2]> (p h).1)) as F.
    rewrite <- E, lookup_insert_eq in F. discriminate.
  - rewrite (tryCatch_run (tryCatch p)), tryCatch_run. reflexivity.
Qed.

(** X2.  The wrapper loses nothing: if two wrapped promises end in the same
    store with the same Result, the promises themselves settled in the same
    store in the same way.  In particular [{ result: undefined }] and
    [{ error: undefined }] are different Results. *)
Theorem tryCatch_injective (p q : Promise) (h h' : heap) :
  tryCatch p h = tryCatch q h' -> p h = q h'.
Proof.
  rewrite !tryCatch_run. intros E.
  destruct (p h) as [h1 s1], (q h') as [h2 s2]. simpl in E.
  injection E as Eh El.
  assert (h1 = h2) as ->.
  { rewrite <- (delete_insert_id h1 (fresh (dom h1)) (Result_of s1)) by apply fresh_None.
    rewrite Eh, <- El. apply delete_insert_id. rewrite El. apply fresh_None. }
  f_equal. apply Result_of_inj.
  apply (f_equal (fun m : heap => m !! fresh (dom h2))) in Eh.
  rewrite !lookup_insert_eq in Eh. congruence.
Qed.

Lemma tryCatch_injective_witness :
  settle (Rejected VUndefined) ∅ = (fun h => (h, Rejected VUndefined)) ∅.
Proof.
  apply (tryCatch_injective (settle (Rejected VUndefined))
           (fun h => (h, Rejected VUndefined)) ∅ ∅).
  vm_compute. reflexivity.
Defined.

(** ** What [request] does to the store *)

Lemma subseteq_alloc (h h' : heap) (o : obj) :
  h ⊆ h' -> h ⊆ <[fresh (dom h') := o]> h'.
Proof. intros H. etrans; [exact H|]. apply insert_subseteq, fresh_None. Qed.

(** The four ways in which [request] ends, by the outcome of the transport. *)
Lemma request_cases (self : HttpClient) (lc : loc) (h : heap) :
  let h2 := (transport_call self (VRef lc) h).1 in
  let s := (transport_call self (VRef lc) h).2 in
  let h3 := <[fresh (dom h2) := Result_of s]> h2 in
  let h4 := <[fresh (dom h3) := ∅]> h3 in
  (exists v, s = Fulfilled v /\ nullish v = false
             /\ request self (VRef lc) h
                = (<[fresh (dom h3) := success_response h2 v]> h3,
                   Fulfilled (VRef (fresh (dom h3)))))
  \/ (exists e, s = Rejected e /\ truthy e = true
                /\ truthy (failure_headers h2 e) = true
                /\ request self (VRef lc) h
                   = (<[fresh (dom h3) := failure_response h2 e (failure_headers h2 e)]> h3,
                      Fulfilled (VRef (fresh (dom h3)))))
  \/ (exists e, s = Rejected e /\ truthy e = true
                /\ truthy (failure_headers h2 e) = false
                /\ request self (VRef lc) h
                   = (<[fresh (dom h4) := failure_response h2 e (VRef (fresh (dom h3)))]> h4,
                      Fulfilled (VRef (fresh (dom h4)))))
  \/ (mappable s = false
      /\ exists v, nullish v = true
                   /\ request self (VRef lc) h
                      = (<[fresh (dom h3) := status_of_nullish v]> h3,
                         Rejected (VRef (fresh (dom h3))))).
Proof.
  destruct (transport_call self (VRef lc) h) as [h2 s] eqn:Hcall. cbn [fst snd].
  destruct s as [v|e]; cbn [Result_of].
  - destruct (nullish v) eqn:Hv.
    + right; right; right. split; [simpl; rewrite Hv; reflexivity|].
      exists v. split; [exact Hv|]. apply (request_fulfilled_nullish _ _ _ _ _ Hcall Hv).
    + left. exists v. split; [reflexivity|]. split; [exact Hv|].
      apply (request_fulfilled _ _ _ _ _ Hcall Hv).
  - destruct (truthy e) eqn:He.
    + pose proof (request_rejected _ _ _ _ _ Hcall He) as R. cbv zeta in R.
      destruct (truthy (failure_headers h2 e)) eqn:Hh.
      * right; left. exists e. auto.
      * right; right; left. exists e. auto.
    + right; right; right. split; [exact He|].
      exists VUndefined. split; [reflexivity|].
      apply (request_rejected_falsy _ _ _ _ _ Hcall He).
Qed.

(** X3.  Whatever the transport's promise does, [request] only adds objects
    to the store in which that promise settled: no object is changed and
    none is removed. *)
Theorem request_only_allocates (self : HttpClient) (lc : loc) (h : heap) :
  (transport_call self (VRef lc) h).1 ⊆ (request self (VRef lc) h).1.
Proof.
  destruct (request_cases self lc h)
    as [(v & _ & _ & ->)|[(e & _ & _ & _ & ->)|[(e & _ & _ & _ & ->)|(_ & v & _ & ->)]]];
    cbn [fst]; repeat apply subseteq_alloc; reflexivity.
Qed.

(** ** When [request] resolves, and with what *)

Lemma fresh2_None (h : heap) (o : obj) :
  h !! fresh (dom (<[fresh (dom h) := o]> h)) = None.
Proof.
  destruct (h !! _) eqn:E; [|reflexivity].
  pose proof (fresh_None (<[fresh (dom h) := o]> h)) as F.
  rewrite alloc_frame in F by eauto. congruence.
Qed.

Lemma fresh3_None (h : heap) (o o' : obj) :
  h !! fresh (dom (<[fresh (dom (<[fresh (dom h) := o]> h)) := o']>
                     (<[fresh (dom h) := o]> h))) = None.
Proof.
  destruct (h !! _) eqn:E; [|reflexivity].
  pose proof (fresh_None (<[fresh (dom (<[fresh (dom h) := o]> h)) := o']>
                            (<[fresh (dom h) := o]> h))) as F.
  rewrite alloc_frame in F by (apply alloc_Some; eauto).
  rewrite alloc_frame in F by eauto. congruence.
Qed.

(** X4.  [request] is fulfilled exactly when the transport's promise is
    fulfilled with a value other than [undefined] and [null] or rejected
    with a truthy value.  Otherwise it is rejected, and never with a value
    that came from the transport: the rejection value is a [TypeError]
    allocated by the failed read of [status]. *)
Theorem request_resolves_iff_mappable (self : HttpClient) (lc : loc) (h : heap) :
  if mappable (transport_call self (VRef lc) h).2
  then exists l, (request self (VRef lc) h).2 = Fulfilled (VRef l)
                 /\ (transport_call self (VRef lc) h).1 !! l = None
  else exists l o, (request self (VRef lc) h).2 = Rejected (VRef l)
                   /\ (transport_call self (VRef lc) h).1 !! l = None
                   /\ (request self (VRef lc) h).1 !! l = Some o
                   /\ o !! "name" = Some (VStr "TypeError").
Proof.
  pose proof (request_cases self lc h) as C. cbv zeta in C. revert C.
  destruct (transport_call self (VRef lc) h) as [h2 s]. cbn [fst snd].
  intros [(v & -> & Hv & ->)|[(e & -> & He & _ & ->)|[(e & -> & He & _ & ->)|(-> & v & _ & ->)]]];
    cbn [mappable fst snd]; rewrite ?Hv, ?He; cbn [negb].
  - eexists. split; [reflexivity|]. apply fresh2_None.
  - eexists. split; [reflexivity|]. apply fresh2_None.
  - eexists. split; [reflexivity|]. apply fresh3_None.
  - eexists _, _. split; [reflexivity|]. split; [apply fresh2_None|].
    split; [apply lookup_insert_eq|]. reflexivity.
Qed.

(** X5.  The shape of the response.  When [request] is fulfilled, its value
    is a new object (not one of the transport's), with exactly three keys:
    [status], [headers] and [data] after a fulfilment, [status], [headers]
    and [error] after a rejection.  No response has both [data] and [error],
    and none has neither. *)
Theorem response_shape (self : HttpClient) (lc : loc) (h : heap) :
  mappable (transport_call self (VRef lc) h).2 = true ->
  exists (l : loc) (o : obj),
    (request self (VRef lc) h).2 = Fulfilled (VRef l)
    /\ (transport_call self (VRef lc) h).1 !! l = None
    /\ (request self (VRef lc) h).1 !! l = Some o
    /\ dom o = match (transport_call self (VRef lc) h).2 with
               | Fulfilled _ => {[ "status"; "headers"; "data" ]}
               | Rejected _ => {[ "status"; "headers"; "error" ]}
               end.
Proof.
  pose proof (request_cases self lc h) as C. cbv zeta in C. revert C.
  destruct (transport_call self (VRef lc) h) as [h2 s]. cbn [fst snd].
  intros [(v & -> & _ & ->)|[(e & -> & _ & _ & ->)|[(e & -> & _ & _ & ->)|(Hm & _)]]] Hm';
    [| | |congruence]; cbn [fst snd];
    eexists _, _; (split; [reflexivity|]);
    (split; [first [apply fresh2_None|apply fresh3_None]|]);
    (split; [apply lookup_insert_eq|]);
    unfold success_response, failure_response;
    rewrite !dom_insert_L, dom_singleton_L; set_solver.
Qed.

Lemma response_shape_witness :
  exists (l : loc) (o : obj),
    (request Tests.client_network_error (VRef 1%positive) (Tests.store_get "/users")).2
    = Fulfilled (VRef l)
    /\ (transport_call Tests.client_network_error (VRef 1%positive)
          (Tests.store_get "/users")).1 !! l = None
    /\ (request Tests.client_network_error (VRef 1%positive) (Tests.store_get "/users")).1
         !! l = Some o
    /\ dom o = {[ "status"; "headers"; "error" ]}.
Proof.
  refine (response_shape Tests.client_network_error 1%positive (Tests.store_get "/users") _).
  vm_compute. reflexivity.
Defined.

(** ** The failure branch never leaves a gap *)

(** X6.  After a rejection with a truthy value the response always has a
    usable status and usable headers: the status is never [undefined] or
    [null], and the headers are never falsy, whatever the failure carries. *)
Theorem failure_fields_defined
    (self : HttpClient) (lc : loc) (h h2 : heap) (e : value) :
  transport_call self (VRef lc) h = (h2, Rejected e) ->
  truthy e = true ->
  exists (o : obj) (st hd : value),
    resolves_with (request self (VRef lc) h) o
    /\ o !! "status" = Some st /\ nullish st = false
    /\ o !! "headers" = Some hd /\ truthy hd = true.
Proof.
  intros Hcall He.
  destruct (request_rejected_resolves self lc h h2 e Hcall He) as (hv & Hres & Hhv & _).
  exists (failure_response h2 e hv), (coalesce (field h2 e "status") (VNum 500)), hv.
  split; [exact Hres|]. split; [reflexivity|]. split; [|split; [reflexivity|]].
  - unfold coalesce. destruct (nullish (field h2 e "status")) eqn:N; [reflexivity|exact N].
  - destruct (truthy (failure_headers h2 e)) eqn:T.
    + rewrite Hhv. exact T.
    + destruct Hhv as (lh & -> & _). reflexivity.
Qed.

Lemma failure_fields_defined_witness :
  exists (o : obj) (st hd : value),
    resolves_with (request Tests.client_status_0 (VRef 1%positive) (Tests.store_get "/users")) o
    /\ o !! "status" = Some st /\ nullish st = false
    /\ o !! "headers" = Some hd /\ truthy hd = true.
Proof.
  refine (failure_fields_defined Tests.client_status_0 1%positive (Tests.store_get "/users")
            (transport_call Tests.client_status_0 (VRef 1%positive) (Tests.store_get "/users")).1
            (VRef 5%positive) _ _);
    vm_compute; reflexivity.
Defined.

(** X7.  A rejection with a truthy value that is not an object (a string
    that was thrown, say) has neither a status nor a response: the response
    is [{ status: 500, headers: {}, error }] with that value as [error] and
    a fresh empty object as [headers]. *)
Theorem failure_with_primitive
    (self : HttpClient) (lc : loc) (h h2 : heap) (e : value) :
  transport_call self (VRef lc) h = (h2, Rejected e) ->
  truthy e = true ->
  is_object e = false ->
  exists (lh : loc),
    resolves_with (request self (VRef lc) h)
                  {[ "status" := VNum 500; "headers" := VRef lh; "error" := e ]}
    /\ h2 !! lh = None
    /\ (request self (VRef lc) h).1 !! lh = Some ∅.
Proof.
  intros Hcall He Hprim.
  destruct (request_rejected_resolves self lc h h2 e Hcall He) as (hv & Hres & Hhv & _).
  assert (forall k, field h2 e k = VUndefined) as Hf.
  { intros k. unfold field. destruct e; try discriminate; reflexivity. }
  unfold failure_headers in Hhv. rewrite Hf in Hhv. simpl in Hhv.
  destruct Hhv as (lh & -> & Hfresh & Hempty).
  exists lh. split; [|split; assumption].
  unfold failure_response in Hres. rewrite Hf in Hres. exact Hres.
Qed.

Lemma failure_with_primitive_witness :
  exists (lh : loc),
    resolves_with
      (request {| axiosInstance := Tests.settles (Rejected (VStr "boom")) |}
               (VRef 1%positive) (Tests.store_get "/users"))
      {[ "status" := VNum 500; "headers" := VRef lh; "error" := VStr "boom" ]}
    /\ (transport_call {| axiosInstance := Tests.settles (Rejected (VStr "boom")) |}
          (VRef 1%positive) (Tests.store_get "/users")).1 !! lh = None
    /\ (request {| axiosInstance := Tests.settles (Rejected (VStr "boom")) |}
                (VRef 1%positive) (Tests.store_get "/users")).1 !! lh = Some ∅.
Proof.
  refine (failure_with_primitive {| axiosInstance := Tests.settles (Rejected (VStr "boom")) |}
            1%positive (Tests.store_get "/users") _ (VStr "boom") _ _ _);
    vm_compute; reflexivity.
Defined.


(** ** What the transport is called with *)

(** [request] calls the transport once and maps what comes of it. *)
Lemma request_respond (self : HttpClient) (lc : loc) (h : heap) :
  request self (VRef lc) h = respond (transport_call self (VRef lc) h).
Proof.
  destruct (transport_call self (VRef lc) h) as [h2 s] eqn:Hcall.
  unfold respond. cbn [fst snd].
  destruct s as [v|e].
  - destruct (nullish v) eqn:Hv.
    + apply (request_fulfilled_nullish _ _ _ _ _ Hcall Hv).
    + apply (request_fulfilled _ _ _ _ _ Hcall Hv).
  - destruct (truthy e) eqn:He.
    + rewrite (request_rejected _ _ _ _ _ Hcall He). reflexivity.
    + apply (request_rejected_falsy _ _ _ _ _ Hcall He).
Qed.

(** X8.  What each verb method asks of the transport (the unit tests check
    it with [toHaveBeenCalledWith]).  A verb method builds its HttpRequest,
    calls the transport with a reference to a fresh object of exactly five
    fields, [method], [url], [headers], [params] and [data], and its outcome
    is what [request] makes of the outcome of that call.  [get] passes its
    params and [data: undefined]; [post], [put] and [patch] pass their body
    as [data] and [params: undefined]; [delete] passes both as
    [undefined]. *)
Theorem verbs_call_transport (T : Transport) (u p b hd : value) (h : heap) :
  let called_with (req cfg : obj) :=
    let h1 := <[fresh (dom h) := req]> h in
    respond (T (VRef (fresh (dom h1))) (<[fresh (dom h1) := cfg]> h1)) in
  get {| axiosInstance := T |} u p hd h
  = called_with {[ "method" := VStr "GET"; "url" := u; "params" := p; "headers" := hd ]}
                {[ "method" := VStr "GET"; "url" := u; "headers" := hd;
                   "params" := p; "data" := VUndefined ]}
  /\ post {| axiosInstance := T |} u b hd h
     = called_with {[ "method" := VStr "POST"; "url" := u; "body" := b; "headers" := hd ]}
                   {[ "method" := VStr "POST"; "url" := u; "headers" := hd;
                      "params" := VUndefined; "data" := b ]}
  /\ put {| axiosInstance := T |} u b hd h
     = called_with {[ "method" := VStr "PUT"; "url" := u; "body" := b; "headers" := hd ]}
                   {[ "method" := VStr "PUT"; "url" := u; "headers" := hd;
                      "params" := VUndefined; "data" := b ]}
  /\ patch {| axiosInstance := T |} u b hd h
     = called_with {[ "method" := VStr "PATCH"; "url" := u; "body" := b; "headers" := hd ]}
                   {[ "method" := VStr "PATCH"; "url" := u; "headers" := hd;
                      "params" := VUndefined; "data" := b ]}
  /\ delete {| axiosInstance := T |} u hd h
     = called_with {[ "method" := VStr "DELETE"; "url" := u; "headers" := hd ]}
                   {[ "method" := VStr "DELETE"; "url" := u; "headers" := hd;
                      "params" := VUndefined; "data" := VUndefined ]}.
Proof.
  cbv zeta. unfold get, post, put, patch, delete, with_object.
  repeat split; rewrite request_respond; unfold transport_call; cbn [axiosInstance];
    do 3 f_equal; unfold transport_config; rewrite !field_new; reflexivity.
Qed.

(** ** The caller's objects *)

Lemma request_grows (self : HttpClient) (lc : loc) (h h0 : heap) :
  (forall arg hh, hh ⊆ (axiosInstance self arg hh).1) ->
  h0 ⊆ h ->
  h0 ⊆ (request self (VRef lc) h).1.
Proof.
  intros Hframe H0.
  assert (h0 ⊆ (transport_call self (VRef lc) h).1) as H2.
  { unfold transport_call. etrans; [|apply Hframe]. apply subseteq_alloc, H0. }
  destruct (request_cases self lc h)
    as [(v & _ & _ & ->)|[(e & _ & _ & _ & ->)|[(e & _ & _ & _ & ->)|(_ & v & _ & ->)]]];
    cbn [fst]; repeat apply subseteq_alloc; exact H2.
Qed.

(** X9.  If the transport changes and removes no object of the store, then
    neither does any verb method: the objects that the caller passed as
    params, body or headers, and the responses of earlier calls, are in the
    store afterwards exactly as they were before. *)
Theorem verbs_leave_store_intact (self : HttpClient) (u p b hd : value) (h : heap) :
  (forall arg hh, hh ⊆ (axiosInstance self arg hh).1) ->
  h ⊆ (get self u p hd h).1
  /\ h ⊆ (post self u b hd h).1
  /\ h ⊆ (put self u b hd h).1
  /\ h ⊆ (patch self u b hd h).1
  /\ h ⊆ (delete self u hd h).1.
Proof.
  intros Hframe. unfold get, post, put, patch, delete, with_object. cbv zeta.
  repeat split; apply (request_grows _ _ _ _ Hframe); apply subseteq_alloc; reflexivity.
Qed.

Lemma verbs_leave_store_intact_witness :
  let headers : heap := {[ 1%positive := {[ "Authorization" := VStr "Bearer token" ]} ]} in
  headers
  ⊆ (get {| axiosInstance := Tests.settles (Rejected (VStr "boom")) |}
         (VStr "/users") VUndefined (VRef 1%positive) headers).1.
Proof.
  refine (proj1 (verbs_leave_store_intact
                   {| axiosInstance := Tests.settles (Rejected (VStr "boom")) |}
                   (VStr "/users") VUndefined VUndefined (VRef 1%positive)
                   {[ 1%positive := {[ "Authorization" := VStr "Bearer token" ]} ]} _)).
  intros arg hh. reflexivity.
Defined.

(** ** Construction without options *)

(** X10.  When the options are left out (or are [null]), [axios.create] is
    called with a fresh object that is exactly [{ baseURL }], in a store
    that is otherwise unchanged; the client holds the instance that
    [axios.create] returns, and an exception of [axios.create] is the
    exception of the constructor. *)
Theorem constructor_without_options_is_baseURL
    (axios_create : value -> M Transport) (baseURL options : value) (h : heap) :
  nullish options = true ->
  exists l : loc,
    h !! l = None
    /\ new_HttpClient axios_create baseURL options h
       = match axios_create (VRef l) (<[l := {[ "baseURL" := baseURL ]}]> h) with
         | (h', Normal instance) => (h', Normal {| axiosInstance := instance |})
         | (h', Throw e) => (h', Throw e)
         end.
Proof.
  intros N. exists (fresh (dom h)). split; [apply fresh_None|].
  unfold new_HttpClient, constructor_config, bind, alloc, ret.
  assert (spread h options = ∅) as -> by (destruct options; try discriminate; reflexivity).
  rewrite (left_id_L ∅ (∪)). 
  destruct (axios_create _ _) as [h' [T|e]]; reflexivity.
Qed.

Lemma constructor_without_options_is_baseURL_witness :
  exists l : loc,
    (∅ : heap) !! l = None
    /\ new_HttpClient (fun _ => ret (Tests.settles (Fulfilled VNull)))
                      (VStr "https://api.example.com") VUndefined ∅
       = (<[l := {[ "baseURL" := VStr "https://api.example.com" ]}]> ∅,
          Normal {| axiosInstance := Tests.settles (Fulfilled VNull) |}).
Proof.
  refine (constructor_without_options_is_baseURL
            (fun _ => ret (Tests.settles (Fulfilled VNull)))
            (VStr "https://api.example.com") VUndefined ∅ _).
  reflexivity.
Defined.
